(** * code-blog: the page layout and its dark-mode toggle

    A shallow embedding of [src/components/layout.js] (the [DarkModeToggle]
    function component and the [Layout] class component) and of the theme
    context described in the accompanying tutorial, followed by the
    properties the specification states about them. *)

From Stdlib Require Import QArith.
From stdpp Require Import base option strings list gmap.

Set Warnings "-register-all,-clear-no-such-hyp".

Local Open Scope string_scope.

(** ** JavaScript errors and the render monad *)

(** The exceptions the modelled code can raise. *)
Inductive JsError : Type :=
| TypeError (msg : string)
| SecurityError (msg : string).

(** What a style interpolation evaluates to: a string, or [undefined] when
    it read a property that is not there. *)
Inductive JsValue : Type :=
| JsUndefined
| JsString (s : string).

(** ** The persisted preference and the hook's state cell *)

(** The browser storage the preference is persisted in.  Reading it can
    raise (storage disabled or blocked); an available storage holds the
    persisted flag, if one was ever written. *)
Inductive Storage : Type :=
| Unavailable
| Available (persisted : option bool).

(** What a page session owns: the storage, and the state cell of the
    [useDarkMode] hook, which is empty until the hook runs for the first
    time in this session. *)
Record World : Type := mkWorld {
  storage : Storage;
  cell : option bool
}.

(** Code that reads and writes the session and may raise. *)
Definition Render (A : Type) : Type := World -> JsError + (A * World).

#[export] Instance Render_ret : MRet Render :=
  fun A (a : A) w => inr (a, w).

#[export] Instance Render_bind : MBind Render :=
  fun A B (k : A -> Render B) (m : Render A) w =>
    match m w with
    | inl e => inl e
    | inr (a, w') => k a w'
    end.

Definition throw {A} (e : JsError) : Render A := fun _ => inl e.

(** ** React elements *)

(** A style value: a bare number (React appends [px] where the property
    takes a length) or a CSS string. *)
Inductive StyleValue : Type :=
| SNum (n : Z)
| SStr (s : string).

(** A style object, keyed by property name. *)
Abbreviation Style := (gmap string StyleValue).

(** The host elements [Layout] renders. *)
Inductive Tag : Type := H1 | H3 | Div | Header | Main.

(** The rendered tree.  [Switch] carries the props [DarkModeToggle] passes
    to the react-switch component; its [onChange] handler is the state
    update it performs on the session when the user flips it. *)
Inductive Element : Type :=
| Text (s : string)
| Img (src alt : string)
| Host (tag : Tag) (style : Style) (children : list Element)
| Link (style : Style) (to : string) (children : list Element)
| Switch (onChange : World -> World) (checked : bool)
         (onColor offColor : string)
         (checkedIcon uncheckedIcon : Element)
         (boxShadow activeBoxShadow : string).

(** ** What the build and the other modules supply *)

(** [__PATH_PREFIX__] is the global the site generator defines at build
    time; [rhythm] and [scale] come from [../utils/typography]; the two
    icons are asset paths resolved by the bundler. *)
Class Env : Type := mkEnv {
  __PATH_PREFIX__ : string;
  rhythm : Q -> string;
  scale : Q -> Style;
  sunIcon : string;
  moonIcon : string
}.

(** ** The theme state holder *)

Module Hook.

(** Modelled from the spec: what the theme state holder exposes, the
    current flag ([getValue]) and the [toggle] operation.  The holder is
    the third-party [use-dark-mode] hook, whose code is not part of the
    sources. *)
Record DarkMode : Type := mkDarkMode {
  value : bool;
  toggle : World -> World
}.

(** Modelled from the spec: "a persisted boolean preference from external
    storage (read on load, written on toggle)".  The read raises when the
    storage cannot be used. *)
Definition getItem (s : Storage) : JsError + option bool :=
  match s with
  | Unavailable => inl (SecurityError "storage is not available")
  | Available persisted => inr persisted
  end.

(** Modelled from the spec: the write of the preference; nothing is kept
    when the storage cannot be used, and nothing is raised ("no propagated
    failure"). *)
Definition setItem (b : bool) (s : Storage) : Storage :=
  match s with
  | Unavailable => Unavailable
  | Available _ => Available (Some b)
  end.

(** Modelled from the spec: the flag a fresh session starts with, the
    persisted preference when there is one and the caller's default
    otherwise, also when the read raises ("degrades to default"). *)
Definition initialState (initialValue : bool) (s : Storage) : bool :=
  match getItem s with
  | inr (Some b) => b
  | inr None => initialValue
  | inl _ => initialValue
  end.

(** Modelled from the spec: [getValue] of the theme state holder, "returns
    current dark-mode flag"; the flag is "initialized to a default (light)
    on first load of the page". *)
Definition getValue (initialValue : bool) (w : World) : bool :=
  match cell w with
  | Some b => b
  | None => initialState initialValue (storage w)
  end.

(** Modelled from the spec: [toggle] of the theme state holder, "flips the
    flag"; the preference is "written on toggle".  The operation "is
    total". *)
Definition toggle_flag (initialValue : bool) (w : World) : World :=
  let next := negb (getValue initialValue w) in
  {| storage := setItem next (storage w); cell := Some next |}.

(** Modelled from the spec: the [use-dark-mode] hook, "External dependency
    in the source; specified here as the contract the rest of the system
    relies on".  Its first run in a session fills the state cell; every
    run returns the current flag and the toggle callback.  "If external
    persisted-preference storage is unavailable, behavior degrades to
    default (light) with no propagated failure". *)
Definition useDarkMode (initialValue : bool) : Render DarkMode :=
  fun w =>
    let current := getValue initialValue w in
    inr ({| value := current; toggle := toggle_flag initialValue |},
         {| storage := storage w; cell := Some current |}).

End Hook.

(** ** react-switch *)

Module ReactSwitch.

(** Modelled from the spec: the react-switch component is a dependency
    whose code is not part of the sources; it "visually represents on
    (dark) vs off (light) with distinct icon per state and distinct track
    colors": the icon and the track colour shown at rest are chosen by
    [checked]. *)
Definition shownIcon (sw : Element) : option Element :=
  match sw with
  | Switch _ checked _ _ checkedIcon uncheckedIcon _ _ =>
      Some (if checked then checkedIcon else uncheckedIcon)
  | _ => None
  end.

(** Modelled from the spec: the same choice, for the track colour. *)
Definition trackColor (sw : Element) : option string :=
  match sw with
  | Switch _ checked onColor offColor _ _ _ _ =>
      Some (if checked then onColor else offColor)
  | _ => None
  end.

(** The [checked] prop of the control. *)
Definition isChecked (sw : Element) : option bool :=
  match sw with
  | Switch _ checked _ _ _ _ _ _ => Some checked
  | _ => None
  end.

(** Modelled from the spec: "invoking the toggle control mutates shared
    theme state"; a user's flip calls the [onChange] prop. *)
Definition flip (sw : Element) (w : World) : World :=
  match sw with
  | Switch onChange _ _ _ _ _ _ _ => onChange w
  | _ => w
  end.

End ReactSwitch.

(** ** layout.js *)

Section Layout.

Context `{env : Env}.

(** [DarkModeToggle], lines 10-25. *)
Definition DarkModeToggle : Render Element :=
  darkMode ← Hook.useDarkMode false;
  mret (Switch (Hook.toggle darkMode) (Hook.value darkMode)
               "#222" "#333"
               (Img moonIcon "moon icon")
               (Img sunIcon "sun icon")
               "0 0 2px 3px #B38CD9"
               "0 0 2px 3px #dfb3e6").

Record Location : Type := mkLocation { pathname : string }.

(** [this.props]; a caller that passes no [location] leaves it
    undefined. *)
Record Props : Type := mkProps {
  location : option Location;
  title : string;
  children : list Element
}.

(** The [header] variable of [render], lines 30-73. *)
Definition Layout_header (pathname title : string) : Element :=
  let rootPath := __PATH_PREFIX__ ++ "/" in
  if String.eqb pathname rootPath then
    Host H1
      (<["margin" := SNum 0]> (scale 0.9))
      [Link {[ "boxShadow" := SStr "none";
               "textDecoration" := SStr "none";
               "color" := SStr "inherit" ]}
            "/"
            [Text title]]
  else
    Host H3
      {[ "fontFamily" := SStr "Montserrat, sans-serif";
         "margin" := SNum 0 ]}
      [Link {[ "boxShadow" := SStr "none";
               "textDecoration" := SStr "none";
               "color" := SStr "inherit" ]}
            "/"
            [Text title]].

(** [Layout.render], lines 28-98.  Reading [location.pathname] raises when
    [location] is undefined; the toggle is rendered in place. *)
Definition Layout_render (props : Props) : Render Element :=
  match location props with
  | None => throw (TypeError "Cannot read property 'pathname' of undefined")
  | Some loc =>
      let header := Layout_header (pathname loc) (title props) in
      toggleControl ← DarkModeToggle;
      mret (Host Div
              {[ "marginLeft" := SStr "auto";
                 "marginRight" := SStr "auto";
                 "maxWidth" := SStr (rhythm 24);
                 "padding" := SStr (rhythm 1.5 ++ " " ++ rhythm (3 / 4)) ]}
              [Host Header
                 {[ "height" := SNum 42;
                    "display" := SStr "flex";
                    "justifyContent" := SStr "space-between";
                    "alignItems" := SStr "center";
                    "marginBottom" := SStr (rhythm 1.5) ]}
                 [header; toggleControl];
               Host Main ∅ (children props)])
  end.

End Layout.

(** ** The tutorial's theme context *)

Module Tutorial.

(** The value the provider passes down: the theme name and the function
    that replaces it.  The provider's state is the name, so an update is a
    function on names. *)
Record Theme : Type := mkTheme {
  name : string;
  updateTheme : string -> string -> string
}.

(** [React.createContext({ name: "light", updateTheme: () => {} })]: what
    a consumer outside of any provider reads. *)
Definition ThemeContext : Theme :=
  {| name := "light"; updateTheme := fun _ state => state |}.

(** [useState("light")] in [ThemeProvider]. *)
Definition initialTheme : string := "light".

Definition setTheme (next : string) : string -> string := fun _ => next.

(** [ThemeProvider]: the value it provides when its state is [theme]. *)
Definition ThemeProvider (theme : string) : Theme :=
  {| name := theme; updateTheme := setTheme |}.

Record Palette : Type := mkPalette {
  foreground : string;
  background : string
}.

Definition themes : gmap string Palette :=
  {[ "light" := {| foreground := "inherit"; background := "inherit" |};
     "dark" := {| foreground := "#ffffff"; background := "#222222" |} ]}.

(** The names every object literal inherits from [Object.prototype] in a
    browser: [themes[name]] finds them when [name] is not a key of the
    table itself. *)
Definition Object_prototype : gset string :=
  {[ "constructor"; "hasOwnProperty"; "isPrototypeOf";
     "propertyIsEnumerable"; "toLocaleString"; "toString"; "valueOf";
     "__proto__"; "__defineGetter__"; "__defineSetter__";
     "__lookupGetter__"; "__lookupSetter__" ]}.

(** What a property read on [themes] finds: a palette of the table, a
    member inherited from the prototype, or nothing. *)
Inductive Member : Type :=
| Own (palette : Palette)
| Inherited
| Missing.

(** [themes[name]]: the keys of the table come first, then the
    prototype. *)
Definition themes_get (name : string) : Member :=
  match themes !! name with
  | Some palette => Own palette
  | None => if decide (name ∈ Object_prototype) then Inherited else Missing
  end.

(** The interpolations of [ThemedLayout].  [themes[props.theme.name]] is a
    palette for the two keys of the table; for an inherited name it is a
    member of the prototype, on which [.foreground] and [.background] are
    undefined; for any other name it is undefined itself, and reading a
    property of it raises. *)
Definition ThemedLayout_color (theme : Theme) : JsError + JsValue :=
  match themes_get (name theme) with
  | Own palette => inr (JsString (foreground palette))
  | Inherited => inr JsUndefined
  | Missing => inl (TypeError "Cannot read property 'foreground' of undefined")
  end.

Definition ThemedLayout_backgroundColor (theme : Theme) : JsError + JsValue :=
  match themes_get (name theme) with
  | Own palette => inr (JsString (background palette))
  | Inherited => inr JsUndefined
  | Missing => inl (TypeError "Cannot read property 'background' of undefined")
  end.


(** The [Switch] of [Header]: its [onChange] and [checked] props. *)
Definition Header_onChange (theme : Theme) : string -> string :=
  updateTheme theme (if String.eqb (name theme) "light" then "dark" else "light").

Definition Header_checked (theme : Theme) : bool :=
  String.eqb (name theme) "dark".

(** One flip of the switch by the user, on the provider's state. *)
Definition flip (theme : string) : string :=
  Header_onChange (ThemeProvider theme) theme.

(** The theme name the switch shows as [x]. *)
Definition nameOf (x : bool) : string := if x then "dark" else "light".

(** The states a page session goes through. *)
Inductive reachable : string -> Prop :=
| reach_initial : reachable initialTheme
| reach_flip theme : reachable theme -> reachable (flip theme).

End Tutorial.

(** ** Reading the rendered page *)

(** The heading and the toggle control are the two children of the
    [header] element, the first child of the outer [div]. *)
Definition headingOf (page : Element) : option Element :=
  match page with
  | Host Div _ (Host Header _ [heading; _] :: _) => Some heading
  | _ => None
  end.

Definition controlOf (page : Element) : option Element :=
  match page with
  | Host Div _ (Host Header _ [_; control] :: _) => Some control
  | _ => None
  end.

Definition contentOf (page : Element) : option (list Element) :=
  match page with
  | Host Div _ [_; Host Main _ content] => Some content
  | _ => None
  end.

(** The level of a heading element. *)
Definition headingLevel (el : Element) : option nat :=
  match el with
  | Host H1 _ _ => Some 1
  | Host H3 _ _ => Some 3
  | _ => None
  end.

Definition styleOf (el : Element) : Style :=
  match el with
  | Host _ style _ => style
  | Link style _ _ => style
  | _ => ∅
  end.

(** The target and the content of the link a heading wraps its title in. *)
Definition linkOf (el : Element) : option (string * list Element) :=
  match el with
  | Host _ _ [Link _ to content] => Some (to, content)
  | _ => None
  end.

(** The page with its toggle control replaced. *)
Definition withControl (control : Element) (page : Element) : Element :=
  match page with
  | Host Div s (Host Header s' [heading; _] :: rest) =>
      Host Div s (Host Header s' [heading; control] :: rest)
  | _ => page
  end.

(** What the control shows, as react-switch draws it. *)

(** The control shows the dark mode: the moon icon on the [#222] track. *)
Definition showsDark `{env : Env} (control : Element) : Prop :=
  ReactSwitch.shownIcon control = Some (Img moonIcon "moon icon")
  /\ ReactSwitch.trackColor control = Some "#222".

(** The control shows the light mode: the sun icon on the [#333] track. *)
Definition showsLight `{env : Env} (control : Element) : Prop :=
  ReactSwitch.shownIcon control = Some (Img sunIcon "sun icon")
  /\ ReactSwitch.trackColor control = Some "#333".

(** ** The page session *)

Section Session.

Context `{env : Env}.

(** The flag the layout's toggle reads: the holder was created with
    [useDarkMode(false)]. *)
Definition isDark (w : World) : bool := Hook.getValue false w.

(** A session on its first load: nothing persisted yet, the hook has not
    run. *)
Definition firstLoad : World := {| storage := Available None; cell := None |}.

(** What can happen to a session: the layout is rendered, or the user
    flips the control of a rendered page. *)
Inductive step : World -> World -> Prop :=
| step_render props w page w' :
    Layout_render props w = inr (page, w') ->
    step w w'
| step_flip props w page w' control :
    Layout_render props w = inr (page, w') ->
    controlOf page = Some control ->
    step w (ReactSwitch.flip control w').

Inductive reachable (w0 : World) : World -> Prop :=
| reach_start : reachable w0 w0
| reach_step w w' : reachable w0 w -> step w w' -> reachable w0 w'.

End Session.

(** ** The scenarios of the specification *)

(** The heading rule as the specification words it: on the site root a
    level-1 heading that carries no style of its own, on every other path a
    level-3 heading with the Montserrat font family, and in both cases a
    link to ["/"] around the title. *)
Definition unstyled_root_heading (env : Env) : Prop :=
  forall (p t : string) (c : list Element) (w : World),
    exists page w' heading,
      Layout_render (mkProps (Some (mkLocation p)) t c) w = inr (page, w')
      /\ headingOf page = Some heading
      /\ linkOf heading = Some ("/", [Text t])
      /\ if decide (p = __PATH_PREFIX__ ++ "/") then
           headingLevel heading = Some 1
           /\ styleOf heading = ∅
         else
           headingLevel heading = Some 3
           /\ styleOf heading !! "fontFamily"
              = Some (SStr "Montserrat, sans-serif").

(** The two scenarios of the specification with the title ["My Blog"]: at
    ["/"] a level-1 heading, at ["/posts/1"] a level-3 heading, each
    wrapping the text ["My Blog"] in a link to ["/"]. *)
Definition MyBlog_scenarios (env : Env) : Prop :=
  forall (c : list Element) (w : World),
    (exists page w' heading,
        Layout_render (mkProps (Some (mkLocation "/")) "My Blog" c) w
        = inr (page, w')
        /\ headingOf page = Some heading
        /\ headingLevel heading = Some 1
        /\ linkOf heading = Some ("/", [Text "My Blog"]))
    /\ (exists page w' heading,
        Layout_render (mkProps (Some (mkLocation "/posts/1")) "My Blog" c) w
        = inr (page, w')
        /\ headingOf page = Some heading
        /\ headingLevel heading = Some 3
        /\ linkOf heading = Some ("/", [Text "My Blog"])).

(** ** Two deployments, for the examples *)

(** A site served from the domain root, and the same site served under
    [/blog].  The typography values stand for what the theme computes. *)
Definition rootSite : Env :=
  {| __PATH_PREFIX__ := "";
     rhythm := fun _ => "1.75rem";
     scale := fun _ => {[ "fontSize" := SStr "2.3rem"; "lineHeight" := SStr "3.5rem" ]};
     sunIcon := "/static/sun-icon.svg";
     moonIcon := "/static/moon-icon.svg" |}.

Definition blogSite : Env :=
  {| __PATH_PREFIX__ := "/blog";
     rhythm := fun _ => "1.75rem";
     scale := fun _ => {[ "fontSize" := SStr "2.3rem"; "lineHeight" := SStr "3.5rem" ]};
     sunIcon := "/blog/static/sun-icon.svg";
     moonIcon := "/blog/static/moon-icon.svg" |}.

(** A typography whose scale brings a margin of its own. *)
Definition marginSite : Env :=
  {| __PATH_PREFIX__ := "";
     rhythm := fun _ => "1.75rem";
     scale := fun _ => {[ "fontSize" := SStr "2.3rem"; "margin" := SStr "1rem" ]};
     sunIcon := "/static/sun-icon.svg";
     moonIcon := "/static/moon-icon.svg" |}.

(** ** layout.js over any implementation of the hook *)

(** [useDarkMode] is an import of [layout.js]; the two components below are
    the same code with the import left open, so that what [layout.js] does
    by itself can be told from what the hook does. *)
Section LayoutWith.

Context `{env : Env}.

Variable useDarkMode : bool -> Render Hook.DarkMode.

(** [DarkModeToggle], lines 10-25. *)
Definition DarkModeToggleWith : Render Element :=
  darkMode ← useDarkMode false;
  mret (Switch (Hook.toggle darkMode) (Hook.value darkMode)
               "#222" "#333"
               (Img moonIcon "moon icon")
               (Img sunIcon "sun icon")
               "0 0 2px 3px #B38CD9"
               "0 0 2px 3px #dfb3e6").

(** [Layout.render], lines 28-98. *)
Definition LayoutRenderWith (props : Props) : Render Element :=
  match location props with
  | None => throw (TypeError "Cannot read property 'pathname' of undefined")
  | Some loc =>
      let header := Layout_header (pathname loc) (title props) in
      toggleControl ← DarkModeToggleWith;
      mret (Host Div
              {[ "marginLeft" := SStr "auto";
                 "marginRight" := SStr "auto";
                 "maxWidth" := SStr (rhythm 24);
                 "padding" := SStr (rhythm 1.5 ++ " " ++ rhythm (3 / 4)) ]}
              [Host Header
                 {[ "height" := SNum 42;
                    "display" := SStr "flex";
                    "justifyContent" := SStr "space-between";
                    "alignItems" := SStr "center";
                    "marginBottom" := SStr (rhythm 1.5) ]}
                 [header; toggleControl];
               Host Main ∅ (children props)])
  end.

End LayoutWith.

(** A hook that cannot do its work: every call raises. *)
Definition brokenHook : bool -> Render Hook.DarkMode :=
  fun _ => throw (SecurityError "The operation is insecure.").

(** ** Counting elements of a page *)

#[export] Instance Tag_eq_dec : EqDecision Tag.
Proof. solve_decision. Defined.

(** The number of host elements with a given tag in a tree; the icons of a
    switch are part of the tree. *)
Fixpoint countTag (tag : Tag) (el : Element) : nat :=
  match el with
  | Text _ => 0
  | Img _ _ => 0
  | Host tag' _ children =>
      (if decide (tag' = tag) then 1 else 0)
      + (fix go (l : list Element) : nat :=
           match l with
           | [] => 0
           | x :: l' => countTag tag x + go l'
           end) children
  | Link _ _ children =>
      (fix go (l : list Element) : nat :=
         match l with
         | [] => 0
         | x :: l' => countTag tag x + go l'
         end) children
  | Switch _ _ _ _ checkedIcon uncheckedIcon _ _ =>
      countTag tag checkedIcon + countTag tag uncheckedIcon
  end.

Definition countTags (tag : Tag) (l : list Element) : nat :=
  foldr (fun x n => countTag tag x + n) 0 l.

(** ** Paths *)

(** Whether a path ends in a slash. *)
Fixpoint endsWithSlash (p : string) : bool :=
  match p with
  | EmptyString => false
  | String c EmptyString => String.eqb (String c EmptyString) "/"
  | String _ rest => endsWithSlash rest
  end.

(** * Properties *)

(** ** The theme state holder *)

Section HolderFacts.

Context `{env : Env}.

Lemma getValue_toggle_flag init w :
  Hook.getValue init (Hook.toggle_flag init w) = negb (Hook.getValue init w).
Proof. reflexivity. Qed.

Lemma isDark_toggle_flag w :
  isDark (Hook.toggle_flag false w) = negb (isDark w).
Proof. apply getValue_toggle_flag. Qed.

Lemma storage_toggle_flag init w :
  storage (Hook.toggle_flag init w)
  = Hook.setItem (negb (Hook.getValue init w)) (storage w).
Proof. reflexivity. Qed.

(** The hook never raises, returns the current flag, and leaves a session
    whose flag is the one it returned. *)
Lemma useDarkMode_runs init w :
  Hook.useDarkMode init w
  = inr ({| Hook.value := Hook.getValue init w;
            Hook.toggle := Hook.toggle_flag init |},
         {| storage := storage w; cell := Some (Hook.getValue init w) |}).
Proof. reflexivity. Qed.

Lemma getValue_mounted init s b :
  Hook.getValue init {| storage := s; cell := Some b |} = b.
Proof. reflexivity. Qed.

(** What [DarkModeToggle] renders in a session [w]. *)
Lemma DarkModeToggle_runs w :
  DarkModeToggle w
  = inr (Switch (Hook.toggle_flag false) (isDark w) "#222" "#333"
                (Img moonIcon "moon icon") (Img sunIcon "sun icon")
                "0 0 2px 3px #B38CD9" "0 0 2px 3px #dfb3e6",
         {| storage := storage w; cell := Some (isDark w) |}).
Proof. reflexivity. Qed.

(** What [Layout.render] returns when it is given a location. *)
Lemma Layout_render_runs p t c w :
  exists page control,
    Layout_render (mkProps (Some (mkLocation p)) t c) w
    = inr (page, {| storage := storage w; cell := Some (isDark w) |})
    /\ DarkModeToggle w
       = inr (control, {| storage := storage w; cell := Some (isDark w) |})
    /\ headingOf page = Some (Layout_header p t)
    /\ controlOf page = Some control
    /\ contentOf page = Some c.
Proof.
  unfold Layout_render; cbn [location pathname title children].
  unfold mbind, Render_bind. rewrite DarkModeToggle_runs.
  eexists _, _.
  split; [reflexivity |].
  split; [reflexivity |].
  split; [reflexivity |].
  split; reflexivity.
Qed.

(** The handler of the control of a rendered page is the holder's
    toggle. *)
Lemma rendered_control_flip p t c w page w' control :
  Layout_render (mkProps (Some (mkLocation p)) t c) w = inr (page, w') ->
  controlOf page = Some control ->
  forall v, ReactSwitch.flip control v = Hook.toggle_flag false v.
Proof.
  intros Hr Hc v.
  destruct (Layout_render_runs p t c w) as (? & ? & Hr' & Ht & _ & Hc' & _).
  rewrite Hr' in Hr. injection Hr as <- _.
  rewrite Hc' in Hc. injection Hc as <-.
  rewrite DarkModeToggle_runs in Ht. by injection Ht as <-.
Qed.

(** Without a location, [render] raises before anything else happens. *)
Lemma Layout_render_no_location t c w :
  exists msg, Layout_render (mkProps None t c) w = inl (TypeError msg).
Proof. eexists. reflexivity. Qed.

End HolderFacts.

(** ** The tutorial's theme *)

Module TutorialFacts.
Import Tutorial.

Lemma flip_light : flip "light" = "dark".
Proof. reflexivity. Qed.

Lemma flip_dark : flip "dark" = "light".
Proof. reflexivity. Qed.

(** Whatever the name, one flip lands on one of the two theme names. *)
Lemma flip_cases theme : flip theme = "dark" \/ flip theme = "light".
Proof.
  unfold flip, Header_onChange, ThemeProvider, setTheme; simpl.
  destruct (String.eqb theme "light"); auto.
Qed.

(** The invariant of the provider's state. *)
Lemma reachable_two_names theme :
  reachable theme -> theme = "light" \/ theme = "dark".
Proof.
  induction 1 as [|theme _ [-> | ->]].
  - left; reflexivity.
  - right; apply flip_light.
  - left; apply flip_dark.
Qed.

Lemma reachable_light : reachable "light".
Proof. exact reach_initial. Qed.

Lemma reachable_dark : reachable "dark".
Proof. rewrite <- flip_light. apply reach_flip, reach_initial. Qed.

Lemma reachable_nameOf x : reachable (nameOf x).
Proof. destruct x; [apply reachable_dark | apply reachable_light]. Qed.

Lemma reachable_iff theme : reachable theme <-> exists x, theme = nameOf x.
Proof.
  split.
  - intros [-> | ->]%reachable_two_names; [by exists false | by exists true].
  - intros [x ->]. apply reachable_nameOf.
Qed.

End TutorialFacts.

(** ** The heading *)

Section HeadingFacts.

Context `{env : Env}.

Lemma Layout_header_root p t :
  p = __PATH_PREFIX__ ++ "/" ->
  Layout_header p t
  = Host H1 (<["margin" := SNum 0]> (scale 0.9))
      [Link {[ "boxShadow" := SStr "none";
               "textDecoration" := SStr "none";
               "color" := SStr "inherit" ]} "/" [Text t]].
Proof.
  intros ->. unfold Layout_header. by rewrite String.eqb_refl.
Qed.

Lemma Layout_header_other p t :
  p <> __PATH_PREFIX__ ++ "/" ->
  Layout_header p t
  = Host H3 {[ "fontFamily" := SStr "Montserrat, sans-serif";
               "margin" := SNum 0 ]}
      [Link {[ "boxShadow" := SStr "none";
               "textDecoration" := SStr "none";
               "color" := SStr "inherit" ]} "/" [Text t]].
Proof.
  intros Hne. unfold Layout_header.
  by apply String.eqb_neq in Hne as ->.
Qed.

(** Both variants wrap the title in a link to ["/"]. *)
Lemma Layout_header_link p t :
  linkOf (Layout_header p t) = Some ("/", [Text t]).
Proof.
  unfold Layout_header. by destruct (String.eqb _ _).
Qed.

Lemma Layout_header_level p t :
  headingLevel (Layout_header p t)
  = Some (if decide (p = __PATH_PREFIX__ ++ "/") then 1 else 3).
Proof.
  case_decide as Hp.
  - by rewrite Layout_header_root.
  - by rewrite Layout_header_other.
Qed.

(** A path that does not end in a slash is never the site root. *)
Lemma posts_1_not_root : "/posts/1" <> __PATH_PREFIX__ ++ "/".
Proof.
  generalize __PATH_PREFIX__ as prefix. intros prefix.
  assert (Hlast : forall s : string,
             "/posts/1" = s ++ "/" -> False).
  { intros s. do 8 (destruct s as [|? s]; [discriminate |];
                     simpl; intros [= ? Hs]; revert Hs).
    destruct s; discriminate. }
  exact (Hlast prefix).
Qed.

End HeadingFacts.

(** ** The heading on the two deployments *)

Example heading_rootSite_root :
  headingLevel (@Layout_header rootSite "/" "My Blog") = Some 1.
Proof. reflexivity. Qed.

Example heading_rootSite_post :
  headingLevel (@Layout_header rootSite "/posts/1" "My Blog") = Some 3.
Proof. reflexivity. Qed.

Example heading_blogSite_root :
  headingLevel (@Layout_header blogSite "/blog/" "My Blog") = Some 1.
Proof. reflexivity. Qed.

Example heading_blogSite_slash :
  headingLevel (@Layout_header blogSite "/" "My Blog") = Some 3.
Proof. reflexivity. Qed.

Example heading_rootSite_style :
  styleOf (@Layout_header rootSite "/" "My Blog")
  = {[ "fontSize" := SStr "2.3rem"; "lineHeight" := SStr "3.5rem";
       "margin" := SNum 0 ]}.
Proof. vm_compute. reflexivity. Qed.

(** ** The claims *)

(** C1. For every value of the theme flag, one toggle flips it and a second
    toggle returns it to its original value.  For the layout's control this
    is read off the session after invoking the rendered control's handler
    once and twice; for the tutorial's switch, off the provider's state for
    the theme name that stands for the flag value [x]. *)
Theorem toggle_twice_restores_flag (env : Env) (w : World) (x : bool) :
  (exists control w',
      DarkModeToggle w = inr (control, w')
      /\ isDark w' = isDark w
      /\ isDark (ReactSwitch.flip control w') = negb (isDark w)
      /\ isDark (ReactSwitch.flip control (ReactSwitch.flip control w'))
         = isDark w)
  /\ Tutorial.Header_checked (Tutorial.ThemeProvider (Tutorial.nameOf x)) = x
  /\ Tutorial.Header_checked
       (Tutorial.ThemeProvider (Tutorial.flip (Tutorial.nameOf x))) = negb x
  /\ Tutorial.flip (Tutorial.flip (Tutorial.nameOf x)) = Tutorial.nameOf x.
Proof.
  split.
  - eexists _, _. split; [apply DarkModeToggle_runs |].
    cbn [ReactSwitch.flip]. rewrite !isDark_toggle_flag.
    unfold isDark at 1 2 3. rewrite !getValue_mounted.
    by rewrite negb_involutive.
  - by destruct x.
Qed.

(** C2, as amended.  For every route path [p]: when [p] is the site root
    the title is a level-1 heading whose style is the typography scale with
    a zero margin, so that its font family is whatever the scale gives;
    otherwise it is a level-3 heading whose font family is fixed to
    Montserrat, with a zero margin.  In both cases the heading wraps the
    title in a link to ["/"]. *)
Theorem heading_follows_route
    (env : Env) (p t : string) (c : list Element) (w : World) :
  exists page w' heading,
    Layout_render (mkProps (Some (mkLocation p)) t c) w = inr (page, w')
    /\ headingOf page = Some heading
    /\ linkOf heading = Some ("/", [Text t])
    /\ if decide (p = __PATH_PREFIX__ ++ "/") then
         headingLevel heading = Some 1
         /\ styleOf heading = <["margin" := SNum 0]> (scale 0.9)
         /\ styleOf heading !! "fontFamily" = scale 0.9 !! "fontFamily"
       else
         headingLevel heading = Some 3
         /\ styleOf heading
            = {[ "fontFamily" := SStr "Montserrat, sans-serif";
                 "margin" := SNum 0 ]}
         /\ styleOf heading !! "fontFamily"
            = Some (SStr "Montserrat, sans-serif").
Proof.
  destruct (Layout_render_runs p t c w) as (page & control & Hr & _ & Hh & _).
  eexists page, _, (Layout_header p t).
  split; [exact Hr |]. split; [exact Hh |].
  split; [apply Layout_header_link |].
  case_decide as Hp.
  - rewrite Layout_header_root by done. cbn [headingLevel styleOf].
    split; [done |]. split; [done |]. by rewrite lookup_insert_ne.
  - rewrite Layout_header_other by done. cbn [headingLevel styleOf].
    split; [done |]. split; [done |]. reflexivity.
Qed.

(** The level-1 heading is never without a style: whatever the scale
    returns, the layout writes a margin into it. *)
Lemma root_heading_is_styled (env : Env) (t : string) :
  styleOf (Layout_header (__PATH_PREFIX__ ++ "/") t) <> ∅.
Proof.
  rewrite Layout_header_root by reflexivity. cbn [styleOf].
  apply insert_non_empty.
Qed.

(** C2, as stated, fails: on the site root the level-1 heading carries an
    inline style, the typography scale with a zero margin. *)
Lemma unstyled_root_heading_fails : ~ unstyled_root_heading rootSite.
Proof.
  intros Hs.
  destruct (Hs "/" "My Blog" [] firstLoad)
    as (page & w' & heading & Hr & Hh & _ & Hstyle).
  destruct (@Layout_render_runs rootSite "/" "My Blog" [] firstLoad)
    as (page' & control & Hr' & _ & Hh' & _).
  rewrite Hr' in Hr. injection Hr as -> _.
  rewrite Hh' in Hh. injection Hh as <-.
  rewrite decide_True in Hstyle by reflexivity.
  destruct Hstyle as [_ Hempty].
  exact (root_heading_is_styled rootSite "My Blog" Hempty).
Qed.

(** C3. The toggle control shows the state of the flag: when [isDark] is
    true it is checked, shows the moon icon and the track colour [#222];
    when false it is unchecked, shows the sun icon and the track colour
    [#333].  The two icons differ and the two track colours differ. *)
Theorem control_shows_flag (env : Env) (w : World) :
  exists control w',
    DarkModeToggle w = inr (control, w')
    /\ ReactSwitch.isChecked control = Some (isDark w)
    /\ ReactSwitch.shownIcon control
       = Some (if isDark w then Img moonIcon "moon icon"
               else Img sunIcon "sun icon")
    /\ ReactSwitch.trackColor control
       = Some (if isDark w then "#222" else "#333")
    /\ Img moonIcon "moon icon" <> Img sunIcon "sun icon"
    /\ "#222" <> "#333".
Proof.
  eexists _, _. split; [apply DarkModeToggle_runs |].
  cbn [ReactSwitch.isChecked ReactSwitch.shownIcon ReactSwitch.trackColor].
  repeat split; try done.
Qed.

(** C4, as amended.  On a site with an empty path prefix, whose root is
    ["/"], both scenarios hold. *)
Theorem MyBlog_scenarios_at_domain_root (env : Env) :
  __PATH_PREFIX__ = "" -> MyBlog_scenarios env.
Proof.
  intros Hprefix c w. split.
  - destruct (Layout_render_runs "/" "My Blog" c w)
      as (page & control & Hr & _ & Hh & _).
    eexists page, _, _. split; [exact Hr |]. split; [exact Hh |].
    rewrite Layout_header_level, Layout_header_link, Hprefix. done.
  - destruct (Layout_render_runs "/posts/1" "My Blog" c w)
      as (page & control & Hr & _ & Hh & _).
    eexists page, _, _. split; [exact Hr |]. split; [exact Hh |].
    rewrite Layout_header_level, Layout_header_link.
    rewrite decide_False by apply posts_1_not_root. done.
Qed.

Lemma MyBlog_scenarios_at_domain_root_witness :
  @__PATH_PREFIX__ rootSite = "" /\ MyBlog_scenarios rootSite.
Proof.
  split; [reflexivity |].
  apply (MyBlog_scenarios_at_domain_root rootSite). reflexivity.
Defined.

(** C4, as stated, fails on a site served under a path prefix: under
    [/blog] the path ["/"] is not the site root and gets the level-3
    heading. *)
Lemma MyBlog_scenarios_fail_under_prefix : ~ MyBlog_scenarios blogSite.
Proof.
  intros Hs.
  destruct (Hs [] firstLoad) as [(page & w' & heading & Hr & Hh & Hl & _) _].
  destruct (@Layout_render_runs blogSite "/" "My Blog" [] firstLoad)
    as (page' & control & Hr' & _ & Hh' & _).
  rewrite Hr' in Hr. injection Hr as -> _.
  rewrite Hh' in Hh. injection Hh as <-.
  rewrite Layout_header_level in Hl. discriminate Hl.
Qed.

(** C5. On the first load of the page the flag is false and the control is
    unchecked; after one invocation of the control's handler the flag is
    true and the control renders checked.  The tutorial's provider starts
    with the light theme, and one flip of its switch selects the dark theme
    and its palette. *)
Theorem first_load_then_toggle (env : Env) :
  (exists control w1 control' w2,
      isDark firstLoad = false
      /\ DarkModeToggle firstLoad = inr (control, w1)
      /\ ReactSwitch.isChecked control = Some false
      /\ isDark w1 = false
      /\ isDark (ReactSwitch.flip control w1) = true
      /\ DarkModeToggle (ReactSwitch.flip control w1) = inr (control', w2)
      /\ ReactSwitch.isChecked control' = Some true)
  /\ Tutorial.Header_checked (Tutorial.ThemeProvider Tutorial.initialTheme)
     = false
  /\ Tutorial.Header_checked
       (Tutorial.ThemeProvider (Tutorial.flip Tutorial.initialTheme)) = true
  /\ Tutorial.ThemedLayout_color
       (Tutorial.ThemeProvider (Tutorial.flip Tutorial.initialTheme))
     = inr (JsString "#ffffff")
  /\ Tutorial.ThemedLayout_backgroundColor
       (Tutorial.ThemeProvider (Tutorial.flip Tutorial.initialTheme))
     = inr (JsString "#222222").
Proof.
  split.
  - eexists _, _, _, _. split; [reflexivity |].
    split; [apply DarkModeToggle_runs |].
    split; [reflexivity |]. split; [reflexivity |].
    split; [reflexivity |].
    split; [apply DarkModeToggle_runs |]. reflexivity.
  - repeat split; reflexivity.
Qed.

(** C6. When the storage of the persisted preference cannot be used, so
    that reading it raises, the toggle and the whole layout still render,
    with the control unchecked and the flag false; a flip of the control
    then sets the flag without raising, and the storage stays as it was. *)
Theorem unavailable_storage_defaults_to_light
    (env : Env) (p t : string) (c : list Element) :
  let w := {| storage := Unavailable; cell := None |} in
  (exists e, Hook.getItem (storage w) = inl e)
  /\ exists control w' page,
      DarkModeToggle w = inr (control, w')
      /\ Layout_render (mkProps (Some (mkLocation p)) t c) w = inr (page, w')
      /\ controlOf page = Some control
      /\ ReactSwitch.isChecked control = Some false
      /\ isDark w' = false
      /\ isDark (ReactSwitch.flip control w') = true
      /\ storage (ReactSwitch.flip control w') = Unavailable.
Proof.
  intros w. split; [eexists; reflexivity |].
  destruct (Layout_render_runs p t c w) as (page & control & Hr & Ht & _ & Hc & _).
  eexists control, _, page.
  split; [exact Ht |]. split; [exact Hr |]. split; [exact Hc |].
  rewrite DarkModeToggle_runs in Ht. injection Ht as <-.
  repeat split; reflexivity.
Qed.

Lemma not_both_shown `{env : Env} control :
  showsDark control -> showsLight control -> False.
Proof.
  intros [_ Hd] [_ Hl]. rewrite Hd in Hl. discriminate Hl.
Qed.

(** Once an operation has run, the hook's cell holds the flag. *)
Lemma reachable_mounted `{env : Env} w0 w :
  reachable w0 w -> w = w0 \/ cell w = Some (isDark w).
Proof.
  induction 1 as [|w w' _ _ Hstep]; [by left |]. right.
  destruct Hstep as [props w page w' Hr | props w page w' control Hr Hc].
  - destruct props as [[[p]|] t c].
    + destruct (Layout_render_runs p t c w) as (? & ? & Hr' & _).
      rewrite Hr' in Hr. by injection Hr as _ <-.
    + destruct (Layout_render_no_location t c w) as [? Hr'].
      rewrite Hr' in Hr. discriminate Hr.
  - destruct props as [[[p]|] t c].
    + destruct (Layout_render_runs p t c w) as (? & ? & Hr' & _ & _ & Hc' & _).
      rewrite Hr' in Hr. injection Hr as <- <-.
      rewrite Hc' in Hc. injection Hc as <-.
      by rewrite (rendered_control_flip _ _ _ _ _ _ _ Hr' Hc').
    + destruct (Layout_render_no_location t c w) as [? Hr'].
      rewrite Hr' in Hr. discriminate Hr.
Qed.

(** C7. In every reachable session the control shows exactly one of the two
    modes, the one the flag selects, and from the first operation on the
    hook's cell holds that flag; in every reachable state of the tutorial's
    provider the theme name is one of the two names of the palette table,
    so that the themed container has its colours. *)
Theorem exactly_one_mode (env : Env) (w0 w : World) (theme : string) :
  reachable w0 w ->
  Tutorial.reachable theme ->
  (exists control w',
      DarkModeToggle w = inr (control, w')
      /\ ((isDark w = true /\ showsDark control /\ ~ showsLight control)
          \/ (isDark w = false /\ showsLight control /\ ~ showsDark control)))
  /\ (w = w0 \/ cell w = Some (isDark w))
  /\ ((theme = "dark"
       /\ Tutorial.Header_checked (Tutorial.ThemeProvider theme) = true)
      \/ (theme = "light"
          /\ Tutorial.Header_checked (Tutorial.ThemeProvider theme) = false))
  /\ exists fg bg : string,
      Tutorial.ThemedLayout_color (Tutorial.ThemeProvider theme)
      = inr (JsString fg)
      /\ Tutorial.ThemedLayout_backgroundColor (Tutorial.ThemeProvider theme)
         = inr (JsString bg).
Proof.
  intros Hw Htheme. split; [| split; [by apply reachable_mounted |]].
  - eexists _, _. split; [apply DarkModeToggle_runs |].
    destruct (isDark w); [left | right].
    + split; [done |].
      assert (Hd : showsDark
                (Switch (Hook.toggle_flag false) true "#222" "#333"
                   (Img moonIcon "moon icon") (Img sunIcon "sun icon")
                   "0 0 2px 3px #B38CD9" "0 0 2px 3px #dfb3e6")) by done.
      split; [exact Hd |]. intros Hl. exact (not_both_shown _ Hd Hl).
    + split; [done |].
      assert (Hl : showsLight
                (Switch (Hook.toggle_flag false) false "#222" "#333"
                   (Img moonIcon "moon icon") (Img sunIcon "sun icon")
                   "0 0 2px 3px #B38CD9" "0 0 2px 3px #dfb3e6")) by done.
      split; [exact Hl |]. intros Hd. exact (not_both_shown _ Hd Hl).
  - apply TutorialFacts.reachable_two_names in Htheme as [-> | ->].
    + split; [by right |]. by eexists _, _.
    + split; [by left |]. by eexists _, _.
Qed.

Lemma exactly_one_mode_witness :
  let w := Hook.toggle_flag false {| storage := Available None; cell := Some false |} in
  @reachable rootSite firstLoad w
  /\ Tutorial.reachable "dark"
  /\ (w = firstLoad \/ cell w = Some (isDark w)).
Proof.
  intros w.
  assert (Hw : @reachable rootSite firstLoad w).
  { destruct (@Layout_render_runs rootSite "/" "My Blog" [] firstLoad)
      as (page & control & Hr & _ & _ & Hc & _).
    pose proof (@step_flip rootSite _ _ _ _ _ Hr Hc) as Hs.
    rewrite (rendered_control_flip _ _ _ _ _ _ _ Hr Hc) in Hs.
    eapply reach_step; [apply reach_start | exact Hs]. }
  split; [exact Hw |]. split; [apply TutorialFacts.reachable_dark |].
  exact (proj1 (proj2 (exactly_one_mode rootSite firstLoad w "dark" Hw
                         TutorialFacts.reachable_dark))).
Defined.

(** A theme name that is neither a key of the table nor inherited from the
    prototype makes the container raise: the invariant is what keeps the
    tutorial's page rendering. *)
Example ThemedLayout_color_unknown :
  exists e, Tutorial.ThemedLayout_color (Tutorial.ThemeProvider "sepia") = inl e.
Proof. eexists. reflexivity. Qed.

(** C8. Given a location, [render] returns a page for every route path,
    title, content and session: the page has its heading, its toggle
    control and the content; flipping the control yields a session in which
    [render] returns a page again. *)
Theorem render_and_toggle_total
    (env : Env) (p t : string) (c : list Element) (w : World) :
  exists page w' heading control,
    Layout_render (mkProps (Some (mkLocation p)) t c) w = inr (page, w')
    /\ headingOf page = Some heading
    /\ (headingLevel heading = Some 1 \/ headingLevel heading = Some 3)
    /\ controlOf page = Some control
    /\ contentOf page = Some c
    /\ exists page2 w2,
        Layout_render (mkProps (Some (mkLocation p)) t c)
          (ReactSwitch.flip control w') = inr (page2, w2).
Proof.
  destruct (Layout_render_runs p t c w) as (page & control & Hr & _ & Hh & Hc & Hm).
  eexists page, _, _, control.
  split; [exact Hr |]. split; [exact Hh |].
  split; [rewrite Layout_header_level; case_decide; auto |].
  split; [exact Hc |]. split; [exact Hm |].
  destruct (Layout_render_runs p t c
              (ReactSwitch.flip control
                 {| storage := storage w; cell := Some (isDark w) |}))
    as (page2 & _ & Hr2 & _).
  eexists _, _. exact Hr2.
Qed.

(** Every operation on a session either leaves the flag as it was, or is a
    flip of a rendered control and negates it. *)
Lemma step_flag `{env : Env} w w' :
  step w w' ->
  isDark w' = isDark w
  \/ (isDark w' = negb (isDark w)
      /\ exists props page w1 control,
          Layout_render props w = inr (page, w1)
          /\ controlOf page = Some control
          /\ w' = ReactSwitch.flip control w1).
Proof.
  intros [props w1 page w2 Hr | props w1 page w2 control Hr Hc].
  - left. destruct props as [[[p]|] t c].
    + destruct (Layout_render_runs p t c w1) as (? & ? & Hr' & _).
      rewrite Hr' in Hr. by injection Hr as _ <-.
    + destruct (Layout_render_no_location t c w1) as [? Hr'].
      rewrite Hr' in Hr. discriminate Hr.
  - right. split; [| by eexists _, _, _, _].
    destruct props as [[[p]|] t c].
    + rewrite (rendered_control_flip _ _ _ _ _ _ _ Hr Hc).
      destruct (Layout_render_runs p t c w1) as (? & ? & Hr' & _).
      rewrite Hr' in Hr. by injection Hr as _ <-.
    + destruct (Layout_render_no_location t c w1) as [? Hr'].
      rewrite Hr' in Hr. discriminate Hr.
Qed.

(** C9. Rendering the layout, for any route path, title, content and
    session, leaves the flag and the persisted preference as they were; the
    flag changes when the handler of the rendered control is invoked. *)
Theorem render_leaves_flag
    (env : Env) (p t : string) (c : list Element) (w : World) :
  exists page w' control,
    Layout_render (mkProps (Some (mkLocation p)) t c) w = inr (page, w')
    /\ isDark w' = isDark w
    /\ storage w' = storage w
    /\ controlOf page = Some control
    /\ isDark (ReactSwitch.flip control w') = negb (isDark w).
Proof.
  destruct (Layout_render_runs p t c w) as (page & control & Hr & _ & _ & Hc & _).
  eexists page, _, control.
  split; [exact Hr |]. split; [reflexivity |]. split; [reflexivity |].
  split; [exact Hc |].
  by rewrite (rendered_control_flip _ _ _ _ _ _ _ Hr Hc).
Qed.

(** C10. For a fixed route path and title the heading is the same in any
    two sessions, whatever their flags and whatever the content: the same
    level, style, link target and link text.  Two pages rendered from the
    same props differ in the toggle control only, and the two controls
    differ in their [checked] prop only. *)
Theorem heading_independent_of_flag
    (env : Env) (p t : string) (c c' : list Element) (w1 w2 : World) :
  exists page1 w1' page2 w2' page3 w3' control1 control2,
    Layout_render (mkProps (Some (mkLocation p)) t c) w1 = inr (page1, w1')
    /\ Layout_render (mkProps (Some (mkLocation p)) t c) w2 = inr (page2, w2')
    /\ Layout_render (mkProps (Some (mkLocation p)) t c') w2 = inr (page3, w3')
    /\ headingOf page1 = Some (Layout_header p t)
    /\ headingOf page2 = Some (Layout_header p t)
    /\ headingOf page3 = Some (Layout_header p t)
    /\ controlOf page1 = Some control1
    /\ controlOf page2 = Some control2
    /\ withControl control2 page1 = page2
    /\ control1
       = Switch (Hook.toggle_flag false) (isDark w1) "#222" "#333"
           (Img moonIcon "moon icon") (Img sunIcon "sun icon")
           "0 0 2px 3px #B38CD9" "0 0 2px 3px #dfb3e6"
    /\ control2
       = Switch (Hook.toggle_flag false) (isDark w2) "#222" "#333"
           (Img moonIcon "moon icon") (Img sunIcon "sun icon")
           "0 0 2px 3px #B38CD9" "0 0 2px 3px #dfb3e6".
Proof.
  unfold Layout_render; cbn [location pathname title children].
  unfold mbind, Render_bind. rewrite !DarkModeToggle_runs.
  eexists _, _, _, _, _, _, _, _.
  do 8 (split; [reflexivity |]).
  split; [reflexivity |]. split; reflexivity.
Qed.

(** * Further properties of the code *)

(** ** What layout.js does by itself *)

Section LayoutWithFacts.

Context `{env : Env}.

(** The components of the claims are the open ones, closed with the model
    of the hook. *)
Lemma DarkModeToggle_closed : DarkModeToggle = DarkModeToggleWith Hook.useDarkMode.
Proof. reflexivity. Qed.

Lemma Layout_render_closed props :
  Layout_render props = LayoutRenderWith Hook.useDarkMode props.
Proof. reflexivity. Qed.

Lemma DarkModeToggleWith_raises hook w e :
  hook false w = inl e -> DarkModeToggleWith hook w = inl e.
Proof.
  intros Hh. unfold DarkModeToggleWith, mbind, Render_bind. by rewrite Hh.
Qed.

Lemma DarkModeToggleWith_returns hook w dm w' :
  hook false w = inr (dm, w') ->
  DarkModeToggleWith hook w
  = inr (Switch (Hook.toggle dm) (Hook.value dm) "#222" "#333"
           (Img moonIcon "moon icon") (Img sunIcon "sun icon")
           "0 0 2px 3px #B38CD9" "0 0 2px 3px #dfb3e6", w').
Proof.
  intros Hh. unfold DarkModeToggleWith, mbind, Render_bind. by rewrite Hh.
Qed.

End LayoutWithFacts.

(** [render] fails in exactly two ways: the caller passed no location, or
    the hook raised.  Nothing in [layout.js] catches an exception, and
    nothing else in it can raise. *)
Theorem LayoutRenderWith_fails_iff
    (env : Env) (hook : bool -> Render Hook.DarkMode)
    (props : Props) (w : World) :
  (exists e, LayoutRenderWith hook props w = inl e)
  <-> location props = None \/ exists e, hook false w = inl e.
Proof.
  destruct props as [[[p]|] t c]; unfold LayoutRenderWith;
    cbn [location pathname title children].
  - unfold mbind at 1. unfold Render_bind.
    destruct (hook false w) as [e | [dm w']] eqn:Hh.
    + rewrite (DarkModeToggleWith_raises _ _ _ Hh).
      split; [intros _; right; by exists e | intros _; by exists e].
    + rewrite (DarkModeToggleWith_returns _ _ _ _ Hh).
      split; [intros [e [=]] | intros [[=] | [e [=]]]].
  - split; [by left | intros _; by eexists].
Qed.

(** When the hook raises, [render] raises the very same exception: the
    failure of the hook reaches the caller of the layout unchanged. *)
Theorem LayoutRenderWith_propagates
    (env : Env) (hook : bool -> Render Hook.DarkMode)
    (p t : string) (c : list Element) (w : World) (e : JsError) :
  hook false w = inl e ->
  LayoutRenderWith hook (mkProps (Some (mkLocation p)) t c) w = inl e.
Proof.
  intros Hh. unfold LayoutRenderWith; cbn [location pathname title children].
  unfold mbind at 1. unfold Render_bind.
  by rewrite (DarkModeToggleWith_raises _ _ _ Hh).
Qed.

Lemma LayoutRenderWith_propagates_witness :
  brokenHook false firstLoad = inl (SecurityError "The operation is insecure.")
  /\ @LayoutRenderWith rootSite brokenHook
       (mkProps (Some (mkLocation "/")) "My Blog" []) firstLoad
     = inl (SecurityError "The operation is insecure.").
Proof.
  split; [reflexivity |].
  apply (LayoutRenderWith_propagates rootSite brokenHook). reflexivity.
Defined.

(** A missing location wins over everything else: [render] raises the
    [TypeError] of the property read in any session and with any hook, also
    one that would raise itself, because the toggle is never reached. *)
Theorem LayoutRenderWith_no_location
    (env : Env) (t : string) (c : list Element) :
  exists msg,
    forall (hook : bool -> Render Hook.DarkMode) (w : World),
      LayoutRenderWith hook (mkProps None t c) w = inl (TypeError msg).
Proof. eexists. intros hook w. reflexivity. Qed.

(** When the hook returns, [render] returns: the session it leaves is the
    one the hook left, the heading is the one of the route, the content is
    passed through, and the control is bound to the hook, its [checked]
    being the hook's value and its handler the hook's toggle. *)
Theorem LayoutRenderWith_binds_hook
    (env : Env) (hook : bool -> Render Hook.DarkMode)
    (p t : string) (c : list Element) (w w' : World) (dm : Hook.DarkMode) :
  hook false w = inr (dm, w') ->
  exists page control,
    LayoutRenderWith hook (mkProps (Some (mkLocation p)) t c) w
    = inr (page, w')
    /\ headingOf page = Some (Layout_header p t)
    /\ contentOf page = Some c
    /\ controlOf page = Some control
    /\ ReactSwitch.isChecked control = Some (Hook.value dm)
    /\ forall v, ReactSwitch.flip control v = Hook.toggle dm v.
Proof.
  intros Hh. unfold LayoutRenderWith; cbn [location pathname title children].
  unfold mbind at 1. unfold Render_bind.
  rewrite (DarkModeToggleWith_returns _ _ _ _ Hh).
  eexists _, _. split; [reflexivity |].
  split; [reflexivity |]. split; [reflexivity |]. split; [reflexivity |].
  split; [reflexivity |]. intros v. reflexivity.
Qed.

Lemma LayoutRenderWith_binds_hook_witness :
  Hook.useDarkMode false {| storage := Available (Some true); cell := None |}
  = inr ({| Hook.value := true; Hook.toggle := Hook.toggle_flag false |},
         {| storage := Available (Some true); cell := Some true |})
  /\ exists page control,
      @LayoutRenderWith rootSite Hook.useDarkMode
        (mkProps (Some (mkLocation "/posts/1")) "My Blog" [])
        {| storage := Available (Some true); cell := None |}
      = inr (page, {| storage := Available (Some true); cell := Some true |})
      /\ controlOf page = Some control
      /\ ReactSwitch.isChecked control = Some true.
Proof.
  split; [reflexivity |].
  destruct (LayoutRenderWith_binds_hook rootSite Hook.useDarkMode
              "/posts/1" "My Blog" []
              {| storage := Available (Some true); cell := None |}
              {| storage := Available (Some true); cell := Some true |}
              {| Hook.value := true; Hook.toggle := Hook.toggle_flag false |}
              eq_refl)
    as (page & control & Hr & _ & _ & Hc & Hk & _).
  exists page, control. split; [exact Hr |]. split; [exact Hc | exact Hk].
Defined.

(** ** Which paths get the large heading *)

Lemma endsWithSlash_app (s : string) : endsWithSlash (s ++ "/") = true.
Proof.
  induction s as [|a s IH]; [reflexivity |].
  change (endsWithSlash (String a (s ++ "/")) = true).
  destruct (s ++ "/") as [|b r] eqn:Hs; [destruct s; discriminate Hs |].
  exact IH.
Qed.

(** A path that does not end in a slash never gets the level-1 heading,
    whatever the path prefix of the site: the root is recognised only with
    its trailing slash. *)
Theorem no_trailing_slash_is_not_root (env : Env) (p t : string) :
  endsWithSlash p = false ->
  headingLevel (Layout_header p t) = Some 3.
Proof.
  intros Hp. rewrite Layout_header_level.
  rewrite decide_False; [reflexivity |].
  intros ->. by rewrite endsWithSlash_app in Hp.
Qed.

Lemma no_trailing_slash_is_not_root_witness :
  endsWithSlash "/blog" = false
  /\ headingLevel (@Layout_header blogSite "/blog" "My Blog") = Some 3.
Proof.
  split; [reflexivity |].
  apply (no_trailing_slash_is_not_root blogSite). reflexivity.
Defined.

Lemma append_slash_neq (s : string) : s <> s ++ "/".
Proof.
  induction s as [|a s IH]; [discriminate |].
  change (String a s ++ "/") with (String a (s ++ "/")).
  intros [= Hs]. exact (IH Hs).
Qed.

(** The path that is the bare prefix gets the level-3 heading, also when
    the prefix itself ends in a slash: the root is the prefix followed by
    one more slash. *)
Theorem bare_prefix_is_not_root (env : Env) (t : string) :
  headingLevel (Layout_header __PATH_PREFIX__ t) = Some 3
  /\ headingLevel (Layout_header (__PATH_PREFIX__ ++ "/") t) = Some 1.
Proof.
  rewrite !Layout_header_level. split.
  - rewrite decide_False; [reflexivity | apply append_slash_neq].
  - by rewrite decide_True.
Qed.

(** ** The style of the heading *)

(** Both heading variants have a zero margin, whatever the typography scale
    returns: the [margin] of the level-1 heading is written after the
    spread of the scale, so a margin the scale would give is overridden, and
    every other property of the scale is kept. *)
Theorem heading_margin_overrides_scale
    (env : Env) (p t k : string) :
  styleOf (Layout_header p t) !! "margin" = Some (SNum 0)
  /\ (k <> "margin" ->
      styleOf (Layout_header (__PATH_PREFIX__ ++ "/") t) !! k
      = scale 0.9 !! k).
Proof.
  split.
  - unfold Layout_header. destruct (String.eqb _ _); cbn [styleOf].
    + apply lookup_insert_eq.
    + reflexivity.
  - intros Hk. rewrite Layout_header_root by reflexivity. cbn [styleOf].
    by rewrite lookup_insert_ne.
Qed.

Lemma heading_margin_overrides_scale_witness :
  "fontSize" <> "margin"
  /\ styleOf (@Layout_header marginSite "/" "My Blog") !! "margin"
     = Some (SNum 0)
  /\ styleOf (@Layout_header marginSite "/" "My Blog") !! "fontSize"
     = Some (SStr "2.3rem").
Proof.
  split; [discriminate |].
  destruct (heading_margin_overrides_scale marginSite "/" "My Blog" "fontSize")
    as [Hm Hk].
  split; [exact Hm |].
  exact (eq_trans (Hk ltac:(discriminate)) eq_refl).
Defined.

(** ** Headings in the page *)

Lemma countTag_Host tag tag' style l :
  countTag tag (Host tag' style l)
  = (if decide (tag' = tag) then 1 else 0) + countTags tag l.
Proof. reflexivity. Qed.

Lemma countTag_Link tag style to l :
  countTag tag (Link style to l) = countTags tag l.
Proof. reflexivity. Qed.

(** Counts the headings of a page whose content is [c]: the traversal is
    run on the part of the tree that is known, the count of [c] is kept. *)
Ltac count_headings c :=
  cbn [countTag];
  change (fix go (l : list Element) {struct l} : nat :=
            match l with [] => 0 | x :: l' => countTag H1 x + go l' end)
    with (countTags H1);
  change (fix go (l : list Element) {struct l} : nat :=
            match l with [] => 0 | x :: l' => countTag H3 x + go l' end)
    with (countTags H3);
  generalize (countTags H1 c) (countTags H3 c); intros ? ?;
  split; repeat case_decide; try congruence; lia.

(** On the root path the layout adds exactly one level-1 heading to the
    page and no level-3 heading; on any other path it adds exactly one
    level-3 heading and no level-1 heading.  The other headings of the page
    are those of the content. *)
Theorem layout_adds_one_heading
    (env : Env) (hook : bool -> Render Hook.DarkMode)
    (p t : string) (c : list Element) (w w' : World) (dm : Hook.DarkMode) :
  hook false w = inr (dm, w') ->
  exists page,
    LayoutRenderWith hook (mkProps (Some (mkLocation p)) t c) w
    = inr (page, w')
    /\ countTag H1 page
       = (if decide (p = __PATH_PREFIX__ ++ "/") then 1 else 0) + countTags H1 c
    /\ countTag H3 page
       = (if decide (p = __PATH_PREFIX__ ++ "/") then 0 else 1) + countTags H3 c.
Proof.
  intros Hh. unfold LayoutRenderWith; cbn [location pathname title children].
  unfold mbind at 1. unfold Render_bind.
  rewrite (DarkModeToggleWith_returns _ _ _ _ Hh).
  eexists. split; [reflexivity |].
  destruct (decide (p = __PATH_PREFIX__ ++ "/")) as [Hp | Hp].
  - rewrite Layout_header_root by done. count_headings c.
  - rewrite Layout_header_other by done. count_headings c.
Qed.

Lemma layout_adds_one_heading_witness :
  Hook.useDarkMode false firstLoad
  = inr ({| Hook.value := false; Hook.toggle := Hook.toggle_flag false |},
         {| storage := Available None; cell := Some false |})
  /\ exists page,
      @LayoutRenderWith rootSite Hook.useDarkMode
        (mkProps (Some (mkLocation "/posts/1")) "My Blog"
           [Host H1 ∅ [Text "A post"]]) firstLoad
      = inr (page, {| storage := Available None; cell := Some false |})
      /\ countTag H1 page = 1
      /\ countTag H3 page = 1.
Proof.
  split; [reflexivity |].
  destruct (layout_adds_one_heading rootSite Hook.useDarkMode
              "/posts/1" "My Blog" [Host H1 ∅ [Text "A post"]]
              firstLoad {| storage := Available None; cell := Some false |}
              {| Hook.value := false; Hook.toggle := Hook.toggle_flag false |}
              eq_refl)
    as (page & Hr & H1c & H3c).
  exists page. split; [exact Hr |]. split.
  - exact (eq_trans H1c eq_refl).
  - exact (eq_trans H3c eq_refl).
Defined.

(** ** The tutorial's theme, beyond the reachable states *)

Module TutorialMore.
Import Tutorial.

Lemma themes_lookup (s : string) :
  themes !! s
  = if decide (s = "light") then
      Some {| foreground := "inherit"; background := "inherit" |}
    else if decide (s = "dark") then
      Some {| foreground := "#ffffff"; background := "#222222" |}
    else None.
Proof.
  unfold themes. repeat case_decide; subst.
  - reflexivity.
  - reflexivity.
  - rewrite lookup_insert_ne by done. by rewrite lookup_singleton_ne.
Qed.

Lemma themes_get_cases (s : string) :
  themes_get s
  = if decide (s = "light") then
      Own {| foreground := "inherit"; background := "inherit" |}
    else if decide (s = "dark") then
      Own {| foreground := "#ffffff"; background := "#222222" |}
    else if decide (s ∈ Object_prototype) then Inherited
    else Missing.
Proof.
  unfold themes_get. rewrite themes_lookup. by repeat case_decide.
Qed.

(** The two keys of the table are not names of the prototype. *)
Lemma light_not_inherited : "light" ∉ Object_prototype.
Proof. by apply (bool_decide_unpack _); vm_compute. Qed.

Lemma dark_not_inherited : "dark" ∉ Object_prototype.
Proof. by apply (bool_decide_unpack _); vm_compute. Qed.

Lemma iter_flip_succ n s :
  Nat.iter (S n) flip s = "light" \/ Nat.iter (S n) flip s = "dark".
Proof.
  cbn [Nat.iter nat_rect].
  destruct (TutorialFacts.flip_cases (Nat.iter n flip s)); auto.
Qed.

End TutorialMore.

(** The themed container reads its colours from the palette table without
    a check.  Its colour interpolation yields a colour exactly for the names
    ["light"] and ["dark"]; for a name the table inherits from
    [Object.prototype] it yields [undefined] and raises nothing; it raises
    exactly for the names that are neither.  The background interpolation
    raises, and is undefined, for the same names. *)
Theorem ThemedLayout_outcomes (theme : Tutorial.Theme) :
  ((exists c, Tutorial.ThemedLayout_color theme = inr (JsString c))
   <-> Tutorial.name theme = "light" \/ Tutorial.name theme = "dark")
  /\ (Tutorial.ThemedLayout_color theme = inr JsUndefined
      <-> Tutorial.name theme ∈ Tutorial.Object_prototype)
  /\ ((exists e, Tutorial.ThemedLayout_color theme = inl e)
      <-> Tutorial.name theme <> "light" /\ Tutorial.name theme <> "dark"
          /\ Tutorial.name theme ∉ Tutorial.Object_prototype)
  /\ ((exists e, Tutorial.ThemedLayout_backgroundColor theme = inl e)
      <-> exists e, Tutorial.ThemedLayout_color theme = inl e)
  /\ (Tutorial.ThemedLayout_backgroundColor theme = inr JsUndefined
      <-> Tutorial.ThemedLayout_color theme = inr JsUndefined).
Proof.
  pose proof TutorialMore.light_not_inherited as Hlight.
  pose proof TutorialMore.dark_not_inherited as Hdark.
  unfold Tutorial.ThemedLayout_color, Tutorial.ThemedLayout_backgroundColor.
  rewrite TutorialMore.themes_get_cases.
  destruct (decide (Tutorial.name theme = "light")) as [-> | Hl];
    [| destruct (decide (Tutorial.name theme = "dark")) as [-> | Hd];
       [| destruct (decide (Tutorial.name theme ∈ Tutorial.Object_prototype))
            as [Hp | Hp]]].
  all: split_and!; split; naive_solver.
Qed.

(** A name of the prototype: the container renders, with no colour. *)
Example ThemedLayout_color_inherited :
  Tutorial.ThemedLayout_color (Tutorial.ThemeProvider "constructor")
  = inr JsUndefined
  /\ Tutorial.ThemedLayout_backgroundColor (Tutorial.ThemeProvider "toString")
     = inr JsUndefined.
Proof. split; vm_compute; reflexivity. Qed.

(** Whatever name the provider's state holds, also one outside the palette
    table, one flip of the switch brings it to ["light"] or ["dark"], and
    it stays there for every later flip: from the first flip on the themed
    container has its colours.  A flip gives ["dark"] from ["light"] only;
    from every other name, known or not, it gives ["light"]. *)
Theorem flip_repairs_theme (s : string) (n : nat) :
  let theme := Tutorial.ThemeProvider (Nat.iter (S n) Tutorial.flip s) in
  (Tutorial.name theme = "light" \/ Tutorial.name theme = "dark")
  /\ (exists fg bg : string,
        Tutorial.ThemedLayout_color theme = inr (JsString fg)
        /\ Tutorial.ThemedLayout_backgroundColor theme = inr (JsString bg))
  /\ Tutorial.flip s = (if decide (s = "light") then "dark" else "light").
Proof.
  intros theme. subst theme. cbn [Tutorial.name Tutorial.ThemeProvider].
  split; [apply TutorialMore.iter_flip_succ |]. split.
  - unfold Tutorial.ThemedLayout_color, Tutorial.ThemedLayout_backgroundColor.
    cbn [Tutorial.name Tutorial.ThemeProvider].
    destruct (TutorialMore.iter_flip_succ n s) as [-> | ->]; by eexists _, _.
  - unfold Tutorial.flip, Tutorial.Header_onChange.
    cbn [Tutorial.name Tutorial.ThemeProvider Tutorial.updateTheme].
    case_decide as Hs.
    + by rewrite Hs.
    + by apply String.eqb_neq in Hs as ->.
Qed.

(** An unknown theme name: the container cannot be rendered with it, and
    one flip leaves it for the light theme. *)
Example flip_from_unknown_name :
  (exists e, Tutorial.ThemedLayout_color (Tutorial.ThemeProvider "sepia")
             = inl e)
  /\ Tutorial.flip "sepia" = "light"
  /\ Tutorial.ThemedLayout_color
       (Tutorial.ThemeProvider (Tutorial.flip "sepia"))
     = inr (JsString "inherit").
Proof. split; [by eexists |]. split; reflexivity. Qed.

(** After [n] flips the switch shows the flag it started from when [n] is
    even and the opposite flag when [n] is odd. *)
Theorem flips_follow_parity (x : bool) (n : nat) :
  Nat.iter n Tutorial.flip (Tutorial.nameOf x)
  = Tutorial.nameOf (xorb x (Nat.odd n))
  /\ Tutorial.Header_checked
       (Tutorial.ThemeProvider (Nat.iter n Tutorial.flip (Tutorial.nameOf x)))
     = xorb x (Nat.odd n).
Proof.
  assert (Hn : Nat.iter n Tutorial.flip (Tutorial.nameOf x)
               = Tutorial.nameOf (xorb x (Nat.odd n))).
  { induction n as [|n IH].
    - by destruct x.
    - cbn [Nat.iter nat_rect]. fold (Nat.iter n Tutorial.flip (Tutorial.nameOf x)).
      rewrite IH, Nat.odd_succ, <- Nat.negb_odd.
      by destruct x, (Nat.odd n). }
  split; [exact Hn |]. rewrite Hn. by destruct (xorb x (Nat.odd n)).
Qed.



(** Outside of any provider the switch is inert: the consumer reads the
    default value of the context, whose [updateTheme] does nothing, so no
    number of flips changes a state, and the page keeps showing the light
    theme with the switch unchecked. *)
Theorem switch_without_provider_is_inert (state : string) (n : nat) :
  Nat.iter n (Tutorial.Header_onChange Tutorial.ThemeContext) state = state
  /\ Tutorial.Header_checked Tutorial.ThemeContext = false
  /\ Tutorial.ThemedLayout_color Tutorial.ThemeContext
     = inr (JsString "inherit")
  /\ Tutorial.ThemedLayout_backgroundColor Tutorial.ThemeContext
     = inr (JsString "inherit").
Proof.
  split; [| repeat split; reflexivity].
  induction n as [|n IH]; [reflexivity |].
  cbn [Nat.iter nat_rect].
  fold (Nat.iter n (Tutorial.Header_onChange Tutorial.ThemeContext) state).
  by rewrite IH.
Qed.
